(** * UELoS: University Equipment Loan System -- the skeleton in [uelos.js]

    A shallow embedding of the single source file: the entity
    constructors, the two due-date strategies (on top of the Date
    operations of ECMA-262 they call), the repository ports and the
    application services, followed by the properties of the
    specification that can be stated about them. *)

From Stdlib Require Import ZArith Lia List.
From stdpp Require Import base strings gmap list.

Local Open Scope Z_scope.

(** ** The built-in [Date], after ECMA-262 (Date objects, section 21.4.1)

    A Date object holds one time value: an integral number of
    milliseconds since 1970-01-01T00:00:00Z, or NaN ("Invalid Date").
    [None] stands for NaN.  All the numbers met here are integers far
    below 2^53 in absolute value whenever the result is a valid time
    value, so the arithmetic on doubles is exact and [Z] models it. *)

Definition msPerDay : Z := 86400000.
Definition maxTimeValue : Z := 8640000000000000.

Record Date := mkDate { DateValue : option Z }.

Definition InvalidDate : Date := mkDate None.

Definition Day (t : Z) : Z := t / msPerDay.
Definition TimeWithinDay (t : Z) : Z := t mod msPerDay.

Definition DaysInYear (y : Z) : Z :=
  if negb (y mod 4 =? 0) then 365
  else if negb (y mod 100 =? 0) then 366
  else if negb (y mod 400 =? 0) then 365
  else 366.

Definition DayFromYear (y : Z) : Z :=
  365 * (y - 1970) + (y - 1969) / 4 - (y - 1901) / 100 + (y - 1601) / 400.

Definition TimeFromYear (y : Z) : Z := msPerDay * DayFromYear y.

(** ECMA-262 defines YearFromTime(t) as the largest integer y with
    TimeFromYear(y) <= t.  It is computed here from the mean length of
    a Gregorian year (146097 days in 400 years), corrected by one year
    at most; [YearFromTime_largest] shows that this is the year of the
    standard. *)
Definition YearFromDay (d : Z) : Z :=
  let y0 := 1970 + (400 * d) / 146097 in
  if d <? DayFromYear y0 then y0 - 1
  else if DayFromYear (y0 + 1) <=? d then y0 + 1
  else y0.

Definition YearFromTime (t : Z) : Z := YearFromDay (Day t).

Definition DayWithinYear (t : Z) : Z := Day t - DayFromYear (YearFromTime t).

Definition InLeapYear (t : Z) : Z :=
  if DaysInYear (YearFromTime t) =? 366 then 1 else 0.

Definition MonthFromTime (t : Z) : Z :=
  let d := DayWithinYear t in
  let leap := InLeapYear t in
  if d <? 31 then 0
  else if d <? 59 + leap then 1
  else if d <? 90 + leap then 2
  else if d <? 120 + leap then 3
  else if d <? 151 + leap then 4
  else if d <? 181 + leap then 5
  else if d <? 212 + leap then 6
  else if d <? 243 + leap then 7
  else if d <? 273 + leap then 8
  else if d <? 304 + leap then 9
  else if d <? 334 + leap then 10
  else 11.

Definition DateFromTime (t : Z) : Z :=
  let d := DayWithinYear t in
  let leap := InLeapYear t in
  match MonthFromTime t with
  | 0 => d + 1
  | 1 => d - 30
  | 2 => d - 58 - leap
  | 3 => d - 89 - leap
  | 4 => d - 119 - leap
  | 5 => d - 150 - leap
  | 6 => d - 180 - leap
  | 7 => d - 211 - leap
  | 8 => d - 242 - leap
  | 9 => d - 272 - leap
  | 10 => d - 303 - leap
  | _ => d - 333 - leap
  end.

(** Number of days of year [ym] before the first of month [mn] (0..11). *)
Definition DaysBeforeMonth (ym mn : Z) : Z :=
  let leap := if DaysInYear ym =? 366 then 1 else 0 in
  match mn with
  | 0 => 0
  | 1 => 31
  | 2 => 59 + leap
  | 3 => 90 + leap
  | 4 => 120 + leap
  | 5 => 151 + leap
  | 6 => 181 + leap
  | 7 => 212 + leap
  | 8 => 243 + leap
  | 9 => 273 + leap
  | 10 => 304 + leap
  | _ => 334 + leap
  end.

(** MakeDay(year, month, date) on integers: the day number of the first
    of month [mn] of year [ym], plus [date - 1].  ([MakeDay_first] shows
    that the day chosen is the one the standard asks for.) *)
Definition MakeDay (year month date : Z) : Z :=
  let ym := year + month / 12 in
  let mn := month mod 12 in
  DayFromYear ym + DaysBeforeMonth ym mn + date - 1.

Definition MakeDate (day time : Z) : Z := day * msPerDay + time.

Definition TimeClip (time : option Z) : option Z :=
  match time with
  | None => None
  | Some t => if maxTimeValue <? Z.abs t then None else Some t
  end.

(** [new Date(value)] for a [value] that is itself a Date object. *)
Definition newDate (value : Date) : Date := mkDate (TimeClip (DateValue value)).

(** [d.getUTCDate()]: NaN for an invalid date. *)
Definition getUTCDate (d : Date) : option Z :=
  match DateValue d with
  | None => None
  | Some t => Some (DateFromTime t)
  end.

(** [d.setUTCDate(dt)], [dt] already converted by ToNumber; the object
    after the call. *)
Definition setUTCDate (d : Date) (dt : option Z) : Date :=
  match DateValue d with
  | None => d
  | Some t =>
      match dt with
      | None => mkDate None
      | Some n =>
          mkDate (TimeClip (Some
            (MakeDate (MakeDay (YearFromTime t) (MonthFromTime t) n)
                      (TimeWithinDay t))))
      end
  end.

(** The Date of a calendar day at midnight UTC, as [Date.UTC(year,
    month, date)] builds it for a four-digit year; used to write dates
    down ([month] counts from 0). *)
Definition utc (year month date : Z) : Date :=
  mkDate (TimeClip (Some (MakeDate (MakeDay year month date) 0))).

(** WeekDay(t) of ECMA-262: 0 is Sunday, ..., 6 is Saturday (what
    [getUTCDay] returns). *)
Definition WeekDay (t : Z) : Z := (Day t + 4) mod 7.

(** The sum [a + b] of two Numbers, NaN absorbing. *)
Definition num_add (a b : option Z) : option Z :=
  match a, b with
  | Some x, Some y => Some (x + y)
  | _, _ => None
  end.

(** ** Domain layer (entities)

    Statuses and roles are the strings of the source.  A parameter with
    a default value is an [option]: [None] is the argument left out (or
    [undefined]), which is when JavaScript takes the default. *)

(** The class an object was built by; [Student] and [Staff] extend [User]. *)
Inductive UserClass := ClassUser | ClassStudent | ClassStaff.

Definition extends (c : UserClass) : option UserClass :=
  match c with
  | ClassUser => None
  | ClassStudent => Some ClassUser
  | ClassStaff => Some ClassUser
  end.

Record User := mkUser {
  user_class : UserClass;
  user_id : string;
  user_name : string;
  user_email : string;
  user_role : string
}.

(** The body of [User]'s constructor, run for [new User] and, through
    [super(...)], for the subclasses. *)
Definition User_constructor (cls : UserClass) (id name email role : string) : User :=
  {| user_class := cls; user_id := id; user_name := name;
     user_email := email; user_role := role |}.

Definition new_User (id name email role : string) : User :=
  User_constructor ClassUser id name email role.

Definition new_Student (id name email : string) : User :=
  User_constructor ClassStudent id name email "Student".

Definition new_Staff (id name email : string) : User :=
  User_constructor ClassStaff id name email "Staff".

Record Equipment := mkEquipment {
  equipment_id : string;
  equipment_name : string;
  equipment_category : string;
  equipment_status : string
}.

Definition new_Equipment (id name category : string) (status : option string) : Equipment :=
  {| equipment_id := id; equipment_name := name; equipment_category := category;
     equipment_status := default "Available" status |}.

Record LoanRequest := mkLoanRequest {
  request_id : string;
  request_studentId : string;
  request_equipmentId : string;
  request_startDate : Date;
  request_endDate : Date;
  request_status : string;
  request_createdAt : Date
}.

(** [clock] is the time value [new Date()] reads when [createdAt] is left out. *)
Definition new_LoanRequest (clock : Z) (id studentId equipmentId : string)
    (startDate endDate : Date) (status : option string) (createdAt : option Date)
    : LoanRequest :=
  {| request_id := id; request_studentId := studentId;
     request_equipmentId := equipmentId;
     request_startDate := startDate; request_endDate := endDate;
     request_status := default "Pending" status;
     request_createdAt := default (mkDate (Some clock)) createdAt |}.

Record Loan := mkLoan {
  loan_id : string;
  loan_studentId : string;
  loan_equipmentId : string;
  loan_startDate : Date;
  loan_dueDate : Date;
  loan_status : string;
  loan_returnedAt : option Date
}.

Definition new_Loan (id studentId equipmentId : string) (startDate dueDate : Date)
    (status : option string) (returnedAt : option Date) : Loan :=
  {| loan_id := id; loan_studentId := studentId; loan_equipmentId := equipmentId;
     loan_startDate := startDate; loan_dueDate := dueDate;
     loan_status := default "Active" status;
     loan_returnedAt := returnedAt |}.

Record Fine := mkFine {
  fine_id : string;
  fine_loanId : string;
  fine_amountCents : Z;
  fine_status : string;
  fine_createdAt : Date;
  fine_paidAt : option Date;
  fine_receiptRef : option string
}.

Definition new_Fine (clock : Z) (id loanId : string) (amountCents : Z)
    (status : option string) (createdAt paidAt : option Date)
    (receiptRef : option string) : Fine :=
  {| fine_id := id; fine_loanId := loanId; fine_amountCents := amountCents;
     fine_status := default "Unpaid" status;
     fine_createdAt := default (mkDate (Some clock)) createdAt;
     fine_paidAt := paidAt;
     fine_receiptRef := receiptRef |}.

(** ** Policies (Strategy) *)

Record FixedDaysStrategy := { fixed_days : Z }.

(** [constructor(days = 7)] *)
Definition new_FixedDaysStrategy (days : option Z) : FixedDaysStrategy :=
  {| fixed_days := default 7 days |}.

Definition FixedDaysStrategy_calculate (this : FixedDaysStrategy) (startDate : Date) : Date :=
  let d := newDate startDate in
  setUTCDate d (num_add (getUTCDate d) (Some (fixed_days this))).

(** [rules] is an ordinary object used as a map from category to days:
    its own properties are a [gmap]; a key it does not own is looked up
    on [Object.prototype], whose properties are functions (and, for
    [__proto__], the prototype object itself). *)
Record CategoryBasedStrategy := { rules : gmap string Z }.

(** [constructor(rules = {})] *)
Definition new_CategoryBasedStrategy (r : option (gmap string Z)) : CategoryBasedStrategy :=
  {| rules := default ∅ r |}.

Definition ObjectPrototypeKeys : list string :=
  [ "constructor"; "hasOwnProperty"; "isPrototypeOf"; "propertyIsEnumerable";
    "toLocaleString"; "toString"; "valueOf"; "__proto__";
    "__defineGetter__"; "__defineSetter__"; "__lookupGetter__"; "__lookupSetter__" ]%string.

Inductive PropertyValue :=
  | PNumber (n : Z)      (* an own property of [rules] *)
  | PInherited           (* a function or object found on [Object.prototype] *)
  | PUndefined.

(** [this.rules[key]] *)
Definition rules_get (r : gmap string Z) (key : string) : PropertyValue :=
  match r !! key with
  | Some n => PNumber n
  | None => if bool_decide (key ∈ ObjectPrototypeKeys) then PInherited else PUndefined
  end.

(** [equipment?.category] used as a property key: [undefined] (no
    equipment given) becomes the key ["undefined"]. *)
Definition category_key (equipment : option Equipment) : string :=
  match equipment with
  | Some e => equipment_category e
  | None => "undefined"
  end.

(** [v ?? 7] *)
Definition nullish_7 (v : PropertyValue) : PropertyValue :=
  match v with
  | PUndefined => PNumber 7
  | _ => v
  end.

(** [ToNumber(a + days)]: a sum of Numbers when [days] is a Number; with
    a function or an object, [+] concatenates strings and the string is
    not a numeral, so the Number is NaN. *)
Definition plus_days (a : option Z) (days : PropertyValue) : option Z :=
  match days with
  | PNumber n => num_add a (Some n)
  | PInherited | PUndefined => None
  end.

Definition CategoryBasedStrategy_calculate (this : CategoryBasedStrategy)
    (startDate : Date) (equipment : option Equipment) : Date :=
  let days := nullish_7 (rules_get (rules this) (category_key equipment)) in
  let d := newDate startDate in
  setUTCDate d (plus_days (getUTCDate d) days).

(** A valid Date: its time value is a number within the range TimeClip keeps. *)
Definition valid_time (t : Z) : Prop := Z.abs t <= maxTimeValue.

(** A Date as the constructor and the setters leave it: Invalid, or with
    a time value inside the range. *)
Definition wf_date (d : Date) : Prop :=
  match DateValue d with
  | Some t => valid_time t
  | None => True
  end.

(** ** The stores and the effects of a call

    The five repositories of [StorageFactory.createRepo] hold the
    entities; a method runs against the wall clock and the stores and
    either returns normally or throws. *)

Record World := mkWorld {
  repo_user : list User;
  repo_equipment : list Equipment;
  repo_loanRequest : list LoanRequest;
  repo_loan : list Loan;
  repo_fine : list Fine
}.


Record JSError := mkJSError { error_name : string; error_message : string }.

(** [new Error(msg)] *)
Definition Error (msg : string) : JSError := mkJSError "Error" msg.

Inductive Completion (A : Type) :=
  | Normal (a : A)
  | Throw (e : JSError).
Arguments Normal {A} a.
Arguments Throw {A} e.

Definition M (A : Type) : Type := Z -> World -> Completion A * World.

#[global] Instance M_ret : MRet M := fun A a _ w => (Normal a, w).

#[global] Instance M_bind : MBind M := fun A B k m clock w =>
  match m clock w with
  | (Normal a, w') => k a clock w'
  | (Throw e, w') => (Throw e, w')
  end.

Definition throw {A} (e : JSError) : M A := fun _ w => (Throw e, w).

(** [void x;] evaluates [x] and drops it. *)
Definition void {A} (x : A) : M unit := mret tt.

(** A parameter [x = new Date()]: the clock is read only when the
    argument is left out. *)
Definition or_now (x : option Date) : M Date :=
  fun clock w => (Normal (default (mkDate (Some clock)) x), w).

(** An [async] method returns a promise: rejected with what the body throws. *)
Inductive Promise (A : Type) :=
  | Fulfilled (a : A)
  | Rejected (e : JSError).
Arguments Fulfilled {A} a.
Arguments Rejected {A} e.

Definition async {A} (body : M A) : Z -> World -> Promise A * World :=
  fun clock w =>
    match body clock w with
    | (Normal a, w') => (Fulfilled a, w')
    | (Throw e, w') => (Rejected e, w')
    end.

(** ** Ports (abstract interfaces) *)

Definition UserRepo_add (user : User) : M unit := throw (Error "NI").
Definition UserRepo_getById (id : string) : M User := throw (Error "NI").
Definition UserRepo_findByEmail (email : string) : M User := throw (Error "NI").
Definition UserRepo_list : M (list User) := throw (Error "NI").

Definition EquipmentRepo_add (eq : Equipment) : M unit := throw (Error "NI").
Definition EquipmentRepo_getById (id : string) : M Equipment := throw (Error "NI").
Definition EquipmentRepo_listAvailable : M (list Equipment) := throw (Error "NI").
Definition EquipmentRepo_updateStatus (id status : string) : M unit := throw (Error "NI").

Definition LoanRequestRepo_add (lr : LoanRequest) : M unit := throw (Error "NI").
Definition LoanRequestRepo_getById (id : string) : M LoanRequest := throw (Error "NI").
Definition LoanRequestRepo_listPending : M (list LoanRequest) := throw (Error "NI").
Definition LoanRequestRepo_updateStatus (id status : string) : M unit := throw (Error "NI").

Definition LoanRepo_add (loan : Loan) : M unit := throw (Error "NI").
Definition LoanRepo_getById (id : string) : M Loan := throw (Error "NI").
Definition LoanRepo_listActive : M (list Loan) := throw (Error "NI").
Definition LoanRepo_close (id : string) (returnedAt : Date) : M unit := throw (Error "NI").

Definition FineRepo_create (fine : Fine) : M unit := throw (Error "NI").
Definition FineRepo_findByLoan (loanId : string) : M (list Fine) := throw (Error "NI").
Definition FineRepo_markPaid (fineId receiptRef : string) (paidAt : Date) : M unit :=
  throw (Error "NI").

Record ChargeOpts := { amountCents : Z; currency : string; cardToken : string }.

Definition PaymentGateway_charge (opts : ChargeOpts) : M string := throw (Error "NI").
Definition Mailer_send (to subject body : string) : M unit := throw (Error "NI").

(** The interface the two strategies extend, and the factory seam. *)
Definition DueDateStrategy_calculate (startDate : Date) (equipment : option Equipment)
    : M Date :=
  throw (Error "Not implemented").

Definition StorageFactory_createRepo (type : string) : M World :=
  throw (Error "Not implemented (factory returns concrete repos per type)").

(** ** Services (application layer) and controllers *)

Definition AvailabilityService_isAvailable (equipmentId : string)
    (period : option (Date * Date)) : Z -> World -> Promise bool * World :=
  async (void equipmentId ;; void period ;;
         throw (Error "Not implemented")).

Definition LoanService_createLoanFromRequest (request : LoanRequest)
    : Z -> World -> Promise Loan * World :=
  async (void request ;;
         throw (Error "Not implemented")).

Definition LoanService_returnLoan (loanId : string) : Z -> World -> Promise unit * World :=
  async (void loanId ;;
         throw (Error "Not implemented")).

Definition NotificationService_send (to message : string)
    : Z -> World -> Promise unit * World :=
  async (void to ;; void message ;; throw (Error "Not implemented")).

Definition PaymentService_payFine (fineId cardToken : string)
    : Z -> World -> Promise unit * World :=
  async (void fineId ;; void cardToken ;;
         throw (Error "Not implemented")).

Definition OverdueService_runDailyCheck (now : option Date)
    : Z -> World -> Promise unit * World :=
  async (now ← or_now now;
         void now ;;
         throw (Error "Not implemented")).

Definition ApprovalController_submitRequest (equipmentId studentId : string)
    (start end_ : Date) : Z -> World -> Promise string * World :=
  async (void equipmentId ;; void studentId ;; void start ;; void end_ ;;
         throw (Error "Not implemented")).

Definition ApprovalController_reviewRequest (requestId decision : string)
    : Z -> World -> Promise unit * World :=
  async (void requestId ;; void decision ;;
         throw (Error "Not implemented")).

Definition PaymentController_payFine (fineId cardToken : string)
    : Z -> World -> Promise unit * World :=
  async (fun clock w =>
           match PaymentService_payFine fineId cardToken clock w with
           | (Fulfilled a, w') => (Normal a, w')
           | (Rejected e, w') => (Throw e, w')
           end).

(** [PaymentController.payFine] over whatever payment service the
    constructor was given: [return this.paymentService.payFine(...)]. *)
Definition PaymentController_payFine_via {A}
    (paymentService_payFine : string -> string -> Z -> World -> Promise A * World)
    (fineId cardToken : string) : Z -> World -> Promise A * World :=
  async (fun clock w =>
           match paymentService_payFine fineId cardToken clock w with
           | (Fulfilled a, w') => (Normal a, w')
           | (Rejected e, w') => (Throw e, w')
           end).

(** ** What the properties speak about *)

(** The calls a client can make on the services and controllers. *)
Inductive Call :=
  | Call_isAvailable (equipmentId : string) (period : option (Date * Date))
  | Call_createLoanFromRequest (request : LoanRequest)
  | Call_returnLoan (loanId : string)
  | Call_send (to message : string)
  | Call_payFine (fineId cardToken : string)
  | Call_runDailyCheck (now : option Date)
  | Call_submitRequest (equipmentId studentId : string) (start end_ : Date)
  | Call_reviewRequest (requestId decision : string)
  | Call_controllerPayFine (fineId cardToken : string).

(** The stores after a call made at time [clock]. *)
Definition world_after (c : Call) (clock : Z) (w : World) : World :=
  match c with
  | Call_isAvailable e p => snd (AvailabilityService_isAvailable e p clock w)
  | Call_createLoanFromRequest r => snd (LoanService_createLoanFromRequest r clock w)
  | Call_returnLoan l => snd (LoanService_returnLoan l clock w)
  | Call_send t m => snd (NotificationService_send t m clock w)
  | Call_payFine f c => snd (PaymentService_payFine f c clock w)
  | Call_runDailyCheck n => snd (OverdueService_runDailyCheck n clock w)
  | Call_submitRequest e s a b => snd (ApprovalController_submitRequest e s a b clock w)
  | Call_reviewRequest r d => snd (ApprovalController_reviewRequest r d clock w)
  | Call_controllerPayFine f c => snd (PaymentController_payFine f c clock w)
  end.

Definition active_loans (equipmentId : string) (w : World) : list Loan :=
  filter (fun l => loan_equipmentId l = equipmentId /\ loan_status l = "Active")
         (repo_loan w).









Definition fines_of_loan (loanId : string) (w : World) : list Fine :=
  filter (fun f => fine_loanId f = loanId) (repo_fine w).

(** [a < b] on Dates compares time values and is false when one is NaN. *)
Definition date_lt (a b : Date) : Prop :=
  match DateValue a, DateValue b with
  | Some x, Some y => x < y
  | _, _ => False
  end.

Definition is_overdue (now : Date) (l : Loan) : Prop := date_lt (loan_dueDate l) now.

Definition unreturned (l : Loan) : Prop :=
  (loan_status l = "Active" \/ loan_status l = "Overdue") /\ loan_returnedAt l = None.

(** One sweep: the clock when it runs and the [now] it is given, if any. *)
Definition Sweep : Type := Z * option Date.

Definition sweep_now (s : Sweep) : Date := default (mkDate (Some (fst s))) (snd s).

Definition run_sweeps (sweeps : list Sweep) (w : World) : World :=
  foldl (fun w s => snd (OverdueService_runDailyCheck (snd s) (fst s) w)) w sweeps.

(** Fines for loan [loanId] present in [w'] beyond those of [w]. *)
Definition fines_created (loanId : string) (w w' : World) : Z :=
  Z.of_nat (length (fines_of_loan loanId w')) - Z.of_nat (length (fines_of_loan loanId w)).

(** The calls on the ports, the strategy interface and the factory. *)
Inductive PortCall :=
  | Port_UserRepo_add (user : User)
  | Port_UserRepo_getById (id : string)
  | Port_UserRepo_findByEmail (email : string)
  | Port_UserRepo_list
  | Port_EquipmentRepo_add (eq : Equipment)
  | Port_EquipmentRepo_getById (id : string)
  | Port_EquipmentRepo_listAvailable
  | Port_EquipmentRepo_updateStatus (id status : string)
  | Port_LoanRequestRepo_add (lr : LoanRequest)
  | Port_LoanRequestRepo_getById (id : string)
  | Port_LoanRequestRepo_listPending
  | Port_LoanRequestRepo_updateStatus (id status : string)
  | Port_LoanRepo_add (loan : Loan)
  | Port_LoanRepo_getById (id : string)
  | Port_LoanRepo_listActive
  | Port_LoanRepo_close (id : string) (returnedAt : Date)
  | Port_FineRepo_create (fine : Fine)
  | Port_FineRepo_findByLoan (loanId : string)
  | Port_FineRepo_markPaid (fineId receiptRef : string) (paidAt : Date)
  | Port_PaymentGateway_charge (opts : ChargeOpts)
  | Port_Mailer_send (to subject body : string)
  | Port_DueDateStrategy_calculate (startDate : Date) (equipment : option Equipment)
  | Port_StorageFactory_createRepo (type : string).

Inductive AnyCall :=
  | OnService (c : Call)
  | OnPort (c : PortCall).

(** What a caller sees of a call: the error thrown (or the rejection of
    the promise), if any, and the stores afterwards. *)
Definition thrown {A} (r : Completion A * World) : option JSError * World :=
  match r with
  | (Normal _, w) => (None, w)
  | (Throw e, w) => (Some e, w)
  end.

Definition rejection {A} (r : Promise A * World) : option JSError * World :=
  match r with
  | (Fulfilled _, w) => (None, w)
  | (Rejected e, w) => (Some e, w)
  end.

Definition call_outcome (c : Call) (clock : Z) (w : World) : option JSError * World :=
  match c with
  | Call_isAvailable e p => rejection (AvailabilityService_isAvailable e p clock w)
  | Call_createLoanFromRequest r => rejection (LoanService_createLoanFromRequest r clock w)
  | Call_returnLoan l => rejection (LoanService_returnLoan l clock w)
  | Call_send t m => rejection (NotificationService_send t m clock w)
  | Call_payFine f c => rejection (PaymentService_payFine f c clock w)
  | Call_runDailyCheck n => rejection (OverdueService_runDailyCheck n clock w)
  | Call_submitRequest e s a b => rejection (ApprovalController_submitRequest e s a b clock w)
  | Call_reviewRequest r d => rejection (ApprovalController_reviewRequest r d clock w)
  | Call_controllerPayFine f c => rejection (PaymentController_payFine f c clock w)
  end.

Definition port_outcome (c : PortCall) (clock : Z) (w : World) : option JSError * World :=
  match c with
  | Port_UserRepo_add u => thrown (UserRepo_add u clock w)
  | Port_UserRepo_getById i => thrown (UserRepo_getById i clock w)
  | Port_UserRepo_findByEmail e => thrown (UserRepo_findByEmail e clock w)
  | Port_UserRepo_list => thrown (UserRepo_list clock w)
  | Port_EquipmentRepo_add e => thrown (EquipmentRepo_add e clock w)
  | Port_EquipmentRepo_getById i => thrown (EquipmentRepo_getById i clock w)
  | Port_EquipmentRepo_listAvailable => thrown (EquipmentRepo_listAvailable clock w)
  | Port_EquipmentRepo_updateStatus i st => thrown (EquipmentRepo_updateStatus i st clock w)
  | Port_LoanRequestRepo_add lr => thrown (LoanRequestRepo_add lr clock w)
  | Port_LoanRequestRepo_getById i => thrown (LoanRequestRepo_getById i clock w)
  | Port_LoanRequestRepo_listPending => thrown (LoanRequestRepo_listPending clock w)
  | Port_LoanRequestRepo_updateStatus i st =>
      thrown (LoanRequestRepo_updateStatus i st clock w)
  | Port_LoanRepo_add l => thrown (LoanRepo_add l clock w)
  | Port_LoanRepo_getById i => thrown (LoanRepo_getById i clock w)
  | Port_LoanRepo_listActive => thrown (LoanRepo_listActive clock w)
  | Port_LoanRepo_close i d => thrown (LoanRepo_close i d clock w)
  | Port_FineRepo_create f => thrown (FineRepo_create f clock w)
  | Port_FineRepo_findByLoan l => thrown (FineRepo_findByLoan l clock w)
  | Port_FineRepo_markPaid f r d => thrown (FineRepo_markPaid f r d clock w)
  | Port_PaymentGateway_charge o => thrown (PaymentGateway_charge o clock w)
  | Port_Mailer_send t sb b => thrown (Mailer_send t sb b clock w)
  | Port_DueDateStrategy_calculate d e => thrown (DueDateStrategy_calculate d e clock w)
  | Port_StorageFactory_createRepo t => thrown (StorageFactory_createRepo t clock w)
  end.

Definition outcome (c : AnyCall) (clock : Z) (w : World) : option JSError * World :=
  match c with
  | OnService c => call_outcome c clock w
  | OnPort c => port_outcome c clock w
  end.

(** A session: calls made one after the other, each at its own clock
    time; the errors seen, in order, and the stores at the end. *)
Fixpoint run_calls (cs : list (AnyCall * Z)) (w : World) : list (option JSError) * World :=
  match cs with
  | [] => ([], w)
  | (c, clock) :: cs =>
      let (o, w') := outcome c clock w in
      let (os, w'') := run_calls cs w' in
      (o :: os, w'')
  end.

(** A promise rejected with an error of the class called [name]. *)
Definition rejected_as {A} (name : string) (p : Promise A) : Prop :=
  exists e, p = Rejected e /\ error_name e = name.

(** Worlds and dates used in the examples. *)
Definition camera : Equipment := new_Equipment "E1" "Canon EOS" "Camera" (Some "Loaned").

Definition loanL1 : Loan :=
  new_Loan "L1" "S1" "E1" (utc 2024 0 1) (utc 2024 0 8) None None.

Definition fineF1 : Fine :=
  new_Fine 0 "F1" "L1" 500 (Some "Paid") (Some (utc 2024 0 10))
           (Some (utc 2024 0 11)) (Some "rcpt-1").

Definition loanedWorld : World := mkWorld [] [camera] [] [loanL1] [].

Definition paidWorld : World := mkWorld [] [camera] [] [loanL1] [fineF1].

Definition shelfWorld : World :=
  mkWorld [] [new_Equipment "E1" "Canon EOS" "Camera" None] [] [] [].

(** * Properties *)

Section Calendar.

Lemma DayFromYear_succ y : DayFromYear (y + 1) = DayFromYear y + DaysInYear y.
Proof.
  unfold DayFromYear, DaysInYear.
  repeat match goal with |- context [?a =? ?b] => destruct (Z.eqb_spec a b) end;
    cbn [negb]; Z.div_mod_to_equations; lia.
Qed.

Lemma DaysInYear_bounds y : 365 <= DaysInYear y <= 366.
Proof.
  unfold DaysInYear.
  repeat match goal with |- context [?a =? ?b] => destruct (Z.eqb_spec a b) end;
    cbn [negb]; lia.
Qed.

Lemma DayFromYear_lt y y' : y < y' -> DayFromYear y < DayFromYear y'.
Proof.
  intros H. unfold DayFromYear. Z.div_mod_to_equations. lia.
Qed.

Lemma YearFromDay_spec d :
  DayFromYear (YearFromDay d) <= d < DayFromYear (YearFromDay d + 1).
Proof.
  unfold YearFromDay.
  set (y0 := 1970 + 400 * d / 146097).
  assert (Hlo : DayFromYear (y0 - 1) <= d)
    by (unfold DayFromYear, y0; Z.div_mod_to_equations; lia).
  assert (Hhi : d < DayFromYear (y0 + 2))
    by (unfold DayFromYear, y0; Z.div_mod_to_equations; lia).
  destruct (Z.ltb_spec d (DayFromYear y0)).
  - replace (y0 - 1 + 1) with y0 by lia. lia.
  - destruct (Z.leb_spec (DayFromYear (y0 + 1)) d).
    + replace (y0 + 1 + 1) with (y0 + 2) by lia. lia.
    + lia.
Qed.

Lemma DayFromYear_le y y' : y <= y' -> DayFromYear y <= DayFromYear y'.
Proof.
  intros H. destruct (Z.eq_dec y y') as [->|]; [lia|].
  apply Z.lt_le_incl, DayFromYear_lt. lia.
Qed.

Lemma YearFromDay_unique d y :
  DayFromYear y <= d < DayFromYear (y + 1) -> YearFromDay d = y.
Proof.
  intros [Hlo Hhi].
  pose proof (YearFromDay_spec d) as [Hlo' Hhi'].
  destruct (Z.lt_trichotomy (YearFromDay d) y) as [Hlt|[Heq|Hgt]]; [|done|].
  - pose proof (DayFromYear_le (YearFromDay d + 1) y). lia.
  - pose proof (DayFromYear_le (y + 1) (YearFromDay d)). lia.
Qed.

Lemma Day_MakeDate D : Day (MakeDate D 0) = D.
Proof.
  unfold Day, MakeDate. rewrite Z.add_0_r. apply Z.div_mul. discriminate.
Qed.

Lemma Day_bounds t : msPerDay * Day t <= t < msPerDay * Day t + msPerDay.
Proof. unfold Day, msPerDay. Z.div_mod_to_equations. lia. Qed.

(** The year computed is the one ECMA-262 defines: the largest [y] with
    TimeFromYear(y) <= t. *)
Lemma YearFromTime_largest t :
  TimeFromYear (YearFromTime t) <= t /\
  forall y, TimeFromYear y <= t -> y <= YearFromTime t.
Proof.
  unfold TimeFromYear, YearFromTime.
  pose proof (YearFromDay_spec (Day t)) as [Hlo Hhi].
  pose proof (Day_bounds t) as Hd.
  split.
  - unfold msPerDay in *. lia.
  - intros y Hy.
    destruct (Z.le_gt_cases y (YearFromDay (Day t))) as [|Hgt]; [done|].
    pose proof (DayFromYear_le (YearFromDay (Day t) + 1) y).
    unfold msPerDay in *. lia.
Qed.

Lemma DayWithinYear_bounds t : 0 <= DayWithinYear t < 365 + InLeapYear t.
Proof.
  unfold DayWithinYear, InLeapYear, YearFromTime.
  pose proof (YearFromDay_spec (Day t)) as H.
  rewrite DayFromYear_succ in H.
  pose proof (DaysInYear_bounds (YearFromDay (Day t))).
  destruct (Z.eqb_spec (DaysInYear (YearFromDay (Day t))) 366); lia.
Qed.

Lemma MonthFromTime_bounds t : 0 <= MonthFromTime t <= 11.
Proof.
  unfold MonthFromTime.
  repeat match goal with |- context [?a <? ?b] => destruct (Z.ltb_spec a b) end; lia.
Qed.

Lemma DateFromTime_offset t :
  DaysBeforeMonth (YearFromTime t) (MonthFromTime t) + DateFromTime t - 1
  = DayWithinYear t.
Proof.
  unfold DateFromTime, DaysBeforeMonth, MonthFromTime.
  fold (InLeapYear t).
  repeat match goal with |- context [?a <? ?b] => destruct (Z.ltb_spec a b) end;
    cbv beta iota zeta; lia.
Qed.

Lemma DateFromTime_bounds t : 1 <= DateFromTime t <= 31.
Proof.
  pose proof (DayWithinYear_bounds t) as Hd.
  assert (Hl : 0 <= InLeapYear t <= 1)
    by (unfold InLeapYear; destruct (_ =? _); lia).
  unfold DateFromTime, MonthFromTime.
  repeat match goal with |- context [?a <? ?b] => destruct (Z.ltb_spec a b) end;
    cbv beta iota zeta; lia.
Qed.

(** Setting the day of the month to "today's day of the month plus n"
    moves the day number by exactly [n]. *)
Lemma MakeDay_shift t n :
  MakeDay (YearFromTime t) (MonthFromTime t) (DateFromTime t + n) = Day t + n.
Proof.
  pose proof (MonthFromTime_bounds t) as Hm.
  pose proof (DateFromTime_offset t) as Ho.
  unfold MakeDay.
  rewrite (Z.div_small (MonthFromTime t) 12), (Z.mod_small (MonthFromTime t) 12) by lia.
  rewrite Z.add_0_r.
  unfold DayWithinYear in Ho. lia.
Qed.

Ltac month_cases m :=
  let H := fresh in
  assert (H : m = 0 \/ m = 1 \/ m = 2 \/ m = 3 \/ m = 4 \/ m = 5 \/ m = 6
              \/ m = 7 \/ m = 8 \/ m = 9 \/ m = 10 \/ m = 11) by lia;
  repeat (destruct H as [H|H]; [rewrite H in *|]); [..|rewrite H in *].

Lemma DaysBeforeMonth_first ym mn t :
  0 <= mn < 12 ->
  YearFromTime t = ym ->
  DayWithinYear t = DaysBeforeMonth ym mn ->
  MonthFromTime t = mn.
Proof.
  intros Hmn HY HW.
  unfold MonthFromTime, InLeapYear. rewrite HW, HY.
  unfold DaysBeforeMonth.
  destruct (DaysInYear ym =? 366); month_cases mn; reflexivity.
Qed.

Lemma DaysBeforeMonth_bounds ym mn :
  0 <= mn < 12 -> 0 <= DaysBeforeMonth ym mn <= 335.
Proof.
  intros Hmn. unfold DaysBeforeMonth.
  destruct (DaysInYear ym =? 366); month_cases mn; lia.
Qed.

(** The day [MakeDay] starts from is the first of the month asked for,
    as the standard requires of it. *)
Lemma MakeDay_first y m :
  let t := MakeDate (MakeDay y m 1) 0 in
  YearFromTime t = y + m / 12 /\ MonthFromTime t = m mod 12 /\ DateFromTime t = 1.
Proof.
  cbv zeta.
  assert (Hmn : 0 <= m mod 12 < 12) by (apply Z.mod_pos_bound; lia).
  pose proof (DaysBeforeMonth_bounds (y + m / 12) (m mod 12) Hmn) as Hb.
  pose proof (DaysInYear_bounds (y + m / 12)) as Hy.
  assert (HD : Day (MakeDate (MakeDay y m 1) 0)
               = DayFromYear (y + m / 12) + DaysBeforeMonth (y + m / 12) (m mod 12)).
  { rewrite Day_MakeDate. unfold MakeDay. lia. }
  assert (HY : YearFromTime (MakeDate (MakeDay y m 1) 0) = y + m / 12).
  { unfold YearFromTime. rewrite HD. apply YearFromDay_unique.
    rewrite DayFromYear_succ. lia. }
  assert (HW : DayWithinYear (MakeDate (MakeDay y m 1) 0)
               = DaysBeforeMonth (y + m / 12) (m mod 12))
    by (unfold DayWithinYear; rewrite HY, HD; lia).
  pose proof (DaysBeforeMonth_first _ _ _ Hmn HY HW) as HM.
  split; [done|]. split; [done|].
  pose proof (DateFromTime_offset (MakeDate (MakeDay y m 1) 0)) as Ho.
  rewrite HY, HM, HW in Ho. lia.
Qed.

End Calendar.

(** ** Due-date policies *)

Section DueDate.

Ltac not_inherited :=
  let H := fresh in
  intros H; apply (bool_decide_eq_true_2 _) in H; vm_compute in H; discriminate H.

Lemma TimeClip_valid t : valid_time t -> TimeClip (Some t) = Some t.
Proof.
  unfold valid_time, TimeClip. intros H.
  destruct (Z.ltb_spec maxTimeValue (Z.abs t)); [lia|done].
Qed.

Lemma TimeClip_invalid t : ~ valid_time t -> TimeClip (Some t) = None.
Proof.
  unfold valid_time, TimeClip. intros H.
  destruct (Z.ltb_spec maxTimeValue (Z.abs t)); [done|lia].
Qed.

Lemma MakeDate_Day t n :
  MakeDate (Day t + n) (TimeWithinDay t) = t + n * msPerDay.
Proof.
  unfold MakeDate, Day, TimeWithinDay, msPerDay. Z.div_mod_to_equations. lia.
Qed.

(** What [d = new Date(start); d.setUTCDate(d.getUTCDate() + n)] leaves
    in [d], for every Date and every integer [n]. *)
Lemma add_days_value start n :
  let d := newDate start in
  setUTCDate d (num_add (getUTCDate d) (Some n))
  = mkDate (match TimeClip (DateValue start) with
            | Some t => TimeClip (Some (t + n * msPerDay))
            | None => None
            end).
Proof.
  cbv zeta. unfold newDate, setUTCDate, getUTCDate. cbn [DateValue].
  destruct (TimeClip (DateValue start)) as [t|]; [|done].
  cbn [num_add]. by rewrite MakeDay_shift, MakeDate_Day.
Qed.

Lemma Day_shift t n : Day (t + n * msPerDay) = Day t + n.
Proof. unfold Day. apply Z.div_add. discriminate. Qed.

Lemma TimeWithinDay_shift t n : TimeWithinDay (t + n * msPerDay) = TimeWithinDay t.
Proof. unfold TimeWithinDay. apply Z.mod_add. discriminate. Qed.

Lemma rules_get_configured (r : gmap string Z) key n :
  r !! key = Some n -> nullish_7 (rules_get r key) = PNumber n.
Proof. unfold rules_get. by intros ->. Qed.

Lemma rules_get_default (r : gmap string Z) key :
  r !! key = None -> key ∉ ObjectPrototypeKeys ->
  nullish_7 (rules_get r key) = PNumber 7.
Proof.
  unfold rules_get. intros -> Hk. by rewrite bool_decide_eq_false_2.
Qed.

(** A category that is not configured but names a property every object
    inherits ("constructor", "toString", ...) finds that property instead
    of the default: the sum is not a number and the date is invalid. *)
Lemma rules_get_inherited (r : gmap string Z) key start equipment :
  category_key equipment = key ->
  r !! key = None -> key ∈ ObjectPrototypeKeys ->
  CategoryBasedStrategy_calculate {| rules := r |} start equipment = InvalidDate.
Proof.
  intros Hk Hr Hin. unfold CategoryBasedStrategy_calculate. cbn [rules].
  rewrite Hk. unfold rules_get. rewrite Hr, bool_decide_eq_true_2 by done.
  cbn [nullish_7 plus_days]. unfold setUTCDate, InvalidDate.
  destruct (newDate start) as [[t|]]; reflexivity.
Qed.

Example inherited_category_example :
  CategoryBasedStrategy_calculate (new_CategoryBasedStrategy (Some {[ "Camera"%string := 3 ]}))
    (utc 2024 0 1) (Some (new_Equipment "E9" "Tripod" "constructor" None))
  = InvalidDate.
Proof. vm_compute. reflexivity. Qed.

(** C1, as stated, fails at the end of the range of Date: seven days
    (the default) after 275760-09-13, the last instant a Date can hold,
    [FixedDaysStrategy.calculate] returns an Invalid Date and not the
    start date plus seven days. *)
Lemma FixedDays_counterexample :
  let this := new_FixedDaysStrategy None in
  let start := utc 275760 8 13 in
  DateValue start = Some maxTimeValue /\
  FixedDaysStrategy_calculate this start = InvalidDate /\
  DateValue (FixedDaysStrategy_calculate this start)
    <> Some (maxTimeValue + fixed_days this * msPerDay).
Proof. vm_compute. repeat split; discriminate. Qed.

(** C1 (amended): for every valid start date [t] and every configured
    integer N (default 7), when [t] plus N days is within the range of
    Date, [FixedDaysStrategy.calculate] returns [t] plus N calendar days
    in UTC: the day number moves by N, the time of day is kept, and
    nothing else (weekday, holiday) enters; outside the range it returns
    an Invalid Date.  For 2024-01-01 and N = 7 it returns 2024-01-08. *)
Theorem FixedDays_calculate_adds_days (this : FixedDaysStrategy) (start : Date) (t : Z) :
  DateValue start = Some t ->
  valid_time t ->
  let r := t + fixed_days this * msPerDay in
  (valid_time r ->
     FixedDaysStrategy_calculate this start = mkDate (Some r) /\
     Day r = Day t + fixed_days this /\
     TimeWithinDay r = TimeWithinDay t) /\
  (~ valid_time r -> FixedDaysStrategy_calculate this start = InvalidDate) /\
  fixed_days (new_FixedDaysStrategy None) = 7 /\
  FixedDaysStrategy_calculate (new_FixedDaysStrategy None) (utc 2024 0 1) = utc 2024 0 8.
Proof.
  intros Hs Ht r.
  unfold FixedDaysStrategy_calculate.
  rewrite !add_days_value, Hs, (TimeClip_valid t Ht). fold r.
  split; [|split; [|split]].
  - intros Hr. rewrite (TimeClip_valid r Hr).
    split; [done|]. split; [apply Day_shift | apply TimeWithinDay_shift].
  - intros Hr. by rewrite (TimeClip_invalid r Hr).
  - reflexivity.
  - vm_compute. reflexivity.
Qed.

Lemma FixedDays_calculate_adds_days_witness :
  FixedDaysStrategy_calculate (new_FixedDaysStrategy (Some 14)) (utc 2024 1 20)
  = utc 2024 2 5.
Proof.
  destruct (FixedDays_calculate_adds_days (new_FixedDaysStrategy (Some 14))
              (utc 2024 1 20) 1708387200000) as [H _].
  - reflexivity.
  - unfold valid_time. vm_compute. discriminate.
  - rewrite (proj1 (H ltac:(unfold valid_time; vm_compute; discriminate))).
    vm_compute. reflexivity.
Defined.

(** C2, as stated, fails at the end of the range of Date: with rules
    {Camera: 3} and the last instant a Date can hold as start date,
    [CategoryBasedStrategy.calculate] returns an Invalid Date both for
    the configured category "Camera" and for the unconfigured "Chair",
    not the start date plus 3 or 7 days. *)
Lemma CategoryBased_counterexample :
  let this := new_CategoryBasedStrategy (Some {[ "Camera"%string := 3 ]}) in
  let start := utc 275760 8 13 in
  let item c := Some (new_Equipment "E1" "item" c None) in
  DateValue start = Some maxTimeValue /\
  rules this !! "Camera"%string = Some 3 /\
  rules this !! "Chair"%string = None /\
  DateValue (CategoryBasedStrategy_calculate this start (item "Camera"%string))
    <> Some (maxTimeValue + 3 * msPerDay) /\
  DateValue (CategoryBasedStrategy_calculate this start (item "Chair"%string))
    <> Some (maxTimeValue + 7 * msPerDay).
Proof. vm_compute. repeat split; discriminate. Qed.

(** C2 (amended): for every valid start date [t] and every equipment
    (also none at all), [CategoryBasedStrategy.calculate] returns a Date
    and never raises: [t] plus [rules[category]] days when the category
    has a configured rule, and [t] plus 7 days when it has none and is
    not the name of a property inherited from [Object.prototype] -- in
    both cases provided that instant is within the range of Date, and an
    Invalid Date when it is not.  With rules {Camera: 3}, "Camera" gives
    start + 3 days and "Chair" gives start + 7 days. *)
Theorem CategoryBased_calculate_adds_days (this : CategoryBasedStrategy)
    (start : Date) (equipment : option Equipment) (t : Z) :
  DateValue start = Some t ->
  valid_time t ->
  let key := category_key equipment in
  let result := CategoryBasedStrategy_calculate this start equipment in
  (forall n, rules this !! key = Some n ->
     (valid_time (t + n * msPerDay) -> result = mkDate (Some (t + n * msPerDay))) /\
     (~ valid_time (t + n * msPerDay) -> result = InvalidDate)) /\
  (rules this !! key = None -> key ∉ ObjectPrototypeKeys ->
     (valid_time (t + 7 * msPerDay) -> result = mkDate (Some (t + 7 * msPerDay))) /\
     (~ valid_time (t + 7 * msPerDay) -> result = InvalidDate)) /\
  (let camera3 := new_CategoryBasedStrategy (Some {[ "Camera"%string := 3 ]}) in
   forall e : Equipment,
     (equipment_category e = "Camera"%string -> valid_time (t + 3 * msPerDay) ->
      CategoryBasedStrategy_calculate camera3 start (Some e)
      = mkDate (Some (t + 3 * msPerDay))) /\
     (equipment_category e = "Chair"%string -> valid_time (t + 7 * msPerDay) ->
      CategoryBasedStrategy_calculate camera3 start (Some e)
      = mkDate (Some (t + 7 * msPerDay)))).
Proof.
  intros Hs Ht key result.
  assert (Hgen : forall (c : CategoryBasedStrategy) (eqp : option Equipment) n,
             nullish_7 (rules_get (rules c) (category_key eqp)) = PNumber n ->
             CategoryBasedStrategy_calculate c start eqp
             = mkDate (TimeClip (Some (t + n * msPerDay)))).
  { intros c eqp n Hn. unfold CategoryBasedStrategy_calculate.
    rewrite Hn. cbn [plus_days].
    by rewrite add_days_value, Hs, (TimeClip_valid t Ht). }
  split; [|split].
  - intros n Hn. subst result.
    rewrite (Hgen this equipment n (rules_get_configured _ _ _ Hn)).
    split; intros Hr.
    + by rewrite (TimeClip_valid _ Hr).
    + by rewrite (TimeClip_invalid _ Hr).
  - intros Hn Hk. subst result.
    rewrite (Hgen this equipment 7 (rules_get_default _ _ Hn Hk)).
    split; intros Hr.
    + by rewrite (TimeClip_valid _ Hr).
    + by rewrite (TimeClip_invalid _ Hr).
  - intros camera3 e. split; intros Hc Hr.
    + rewrite (Hgen camera3 (Some e) 3).
      * by rewrite (TimeClip_valid _ Hr).
      * apply rules_get_configured. cbn [category_key]. rewrite Hc. reflexivity.
    + rewrite (Hgen camera3 (Some e) 7).
      * by rewrite (TimeClip_valid _ Hr).
      * apply rules_get_default; cbn [category_key]; rewrite Hc.
        -- reflexivity.
        -- not_inherited.
Qed.

Lemma CategoryBased_calculate_adds_days_witness :
  let this := new_CategoryBasedStrategy (Some {[ "Camera"%string := 3; "Laptop"%string := 7 ]}) in
  CategoryBasedStrategy_calculate this (utc 2024 1 27)
    (Some (new_Equipment "E1" "Canon EOS" "Camera" None)) = utc 2024 2 1 /\
  CategoryBasedStrategy_calculate this (utc 2024 1 27) None = utc 2024 2 5.
Proof.
  cbv zeta. split.
  - destruct (CategoryBased_calculate_adds_days
                (new_CategoryBasedStrategy (Some {[ "Camera"%string := 3; "Laptop"%string := 7 ]}))
                (utc 2024 1 27) (Some (new_Equipment "E1" "Canon EOS" "Camera" None))
                1708992000000) as [H _].
    + reflexivity.
    + unfold valid_time. vm_compute. discriminate.
    + destruct (H 3) as [H3 _]; [reflexivity|].
      rewrite H3; [vm_compute; reflexivity|].
      unfold valid_time. vm_compute. discriminate.
  - destruct (CategoryBased_calculate_adds_days
                (new_CategoryBasedStrategy (Some {[ "Camera"%string := 3; "Laptop"%string := 7 ]}))
                (utc 2024 1 27) None 1708992000000) as (_ & H & _).
    + reflexivity.
    + unfold valid_time. vm_compute. discriminate.
    + destruct H as [H7 _]; [reflexivity| |].
      * not_inherited.
      * rewrite H7; [vm_compute; reflexivity|].
        unfold valid_time. vm_compute. discriminate.
Defined.

End DueDate.

(** ** Services and controllers *)

Section Services.

Variables (clock : Z) (w : World).

Lemma isAvailable_rejects equipmentId period :
  AvailabilityService_isAvailable equipmentId period clock w
  = (Rejected (Error "Not implemented"), w).
Proof. reflexivity. Qed.

Lemma createLoanFromRequest_rejects request :
  LoanService_createLoanFromRequest request clock w
  = (Rejected (Error "Not implemented"), w).
Proof. reflexivity. Qed.

Lemma returnLoan_rejects loanId :
  LoanService_returnLoan loanId clock w = (Rejected (Error "Not implemented"), w).
Proof. reflexivity. Qed.

Lemma send_rejects to message :
  NotificationService_send to message clock w = (Rejected (Error "Not implemented"), w).
Proof. reflexivity. Qed.

Lemma payFine_rejects fineId cardToken :
  PaymentService_payFine fineId cardToken clock w
  = (Rejected (Error "Not implemented"), w).
Proof. reflexivity. Qed.

Lemma runDailyCheck_rejects now :
  OverdueService_runDailyCheck now clock w = (Rejected (Error "Not implemented"), w).
Proof. reflexivity. Qed.

Lemma submitRequest_rejects equipmentId studentId start end_ :
  ApprovalController_submitRequest equipmentId studentId start end_ clock w
  = (Rejected (Error "Not implemented"), w).
Proof. reflexivity. Qed.

Lemma reviewRequest_rejects requestId decision :
  ApprovalController_reviewRequest requestId decision clock w
  = (Rejected (Error "Not implemented"), w).
Proof. reflexivity. Qed.

Lemma controller_payFine_rejects fineId cardToken :
  PaymentController_payFine fineId cardToken clock w
  = (Rejected (Error "Not implemented"), w).
Proof. reflexivity. Qed.

Lemma world_after_same c : world_after c clock w = w.
Proof. destruct c; reflexivity. Qed.

Lemma not_implemented_kind {A} name :
  name <> "Error"%string -> ~ @rejected_as A name (Rejected (Error "Not implemented")).
Proof. intros Hn (e & [= <-] & He). by apply Hn. Qed.

End Services.

Lemma run_sweeps_same sweeps w : run_sweeps sweeps w = w.
Proof.
  unfold run_sweeps. induction sweeps as [|s sweeps IH]; [done|].
  cbn [foldl]. by rewrite runDailyCheck_rejects.
Qed.



(** Whatever the stores hold, a call leaves the active loans as they were. *)
Lemma call_keeps_active_loans c clock w e :
  active_loans e (world_after c clock w) = active_loans e w.
Proof. by rewrite world_after_same. Qed.

(** ** Overdue sweep *)

(** C3, as stated, fails: loan L1 is Active, unreturned and due on
    2024-01-08; after two sweeps with [now] = 2024-01-10 no Fine for it
    exists, where the claim has exactly one created. *)
Lemma runDailyCheck_counterexample :
  let now := utc 2024 0 10 in
  let sweeps := [(1704844800000, Some now); (1704844800000, Some now)] in
  loanL1 ∈ repo_loan loanedWorld /\
  unreturned loanL1 /\
  is_overdue now loanL1 /\
  fines_of_loan "L1" (run_sweeps sweeps loanedWorld) = [] /\
  fines_created "L1" loanedWorld (run_sweeps sweeps loanedWorld) <> 1.
Proof.
  cbv zeta. split; [left|]. split; [by split; [left|]|].
  split; [by vm_compute|]. split; [reflexivity|by vm_compute].
Qed.

(** C3 (amended): for every overdue, unreturned loan, no call of
    [OverdueService.runDailyCheck] -- the first, the second or any later
    one, with the same or a later [now] -- creates a Fine for that loan:
    every sweep is rejected with Error("Not implemented"), and across any
    sequence of sweeps the fines of the loan stay what they were, so at
    most one Fine (in fact none) is created per loan. *)
Theorem runDailyCheck_creates_no_fine (w : World) (l : Loan) (sweeps : list Sweep) :
  l ∈ repo_loan w ->
  unreturned l ->
  Forall (fun s => is_overdue (sweep_now s) l) sweeps ->
  Forall (fun s => OverdueService_runDailyCheck (snd s) (fst s) w
                   = (Rejected (Error "Not implemented"), w)) sweeps /\
  fines_of_loan (loan_id l) (run_sweeps sweeps w) = fines_of_loan (loan_id l) w /\
  fines_created (loan_id l) w (run_sweeps sweeps w) = 0 /\
  fines_created (loan_id l) w (run_sweeps sweeps w) <= 1.
Proof.
  intros _ _ _. rewrite run_sweeps_same. unfold fines_created.
  split; [|split; [done|lia]].
  apply Forall_forall. intros s _. apply runDailyCheck_rejects.
Qed.

Lemma runDailyCheck_creates_no_fine_witness :
  fines_created "L1" loanedWorld
    (run_sweeps [(1704844800000, None); (1704931200000, Some (utc 2024 0 11))] loanedWorld)
  = 0.
Proof.
  refine (proj1 (proj2 (proj2
    (runDailyCheck_creates_no_fine loanedWorld loanL1
       [(1704844800000, None); (1704931200000, Some (utc 2024 0 11))] _ _ _)))).
  - left.
  - split; [by left|reflexivity].
  - repeat constructor.
Defined.

(** ** Loan lifecycle *)



(** C6, as stated, fails: loan L1 is Active and its equipment Loaned;
    the first [returnLoan("L1")] does not succeed, L1 stays Active with
    no [returnedAt] and the equipment stays Loaned; and for an id that
    no loan has, the rejection is not a NotFoundError. *)
Lemma returnLoan_counterexample :
  let r := LoanService_returnLoan "L1" 1704844800000 loanedWorld in
  loanL1 ∈ repo_loan loanedWorld /\
  loan_status loanL1 = "Active"%string /\
  fst r <> Fulfilled tt /\
  repo_loan (snd r) = [loanL1] /\
  equipment_status <$> repo_equipment (snd r) = ["Loaned"%string] /\
  ~ rejected_as "NotFoundError"
      (fst (LoanService_returnLoan "L404" 1704844800000 loanedWorld)).
Proof.
  cbv zeta. split; [left|]. split; [reflexivity|]. split; [discriminate|].
  split; [reflexivity|]. split; [reflexivity|].
  by apply not_implemented_kind.
Qed.

(** C6 (amended): for every loan id, known or not, every call of
    [returnLoan(loanId)] -- the first as well as a second one -- is
    rejected with a plain Error("Not implemented"), which is neither an
    InvalidStateError nor a NotFoundError, and leaves all state
    unchanged: no loan is closed and no equipment is freed. *)
Theorem returnLoan_always_rejects (loanId : string) (clock clock' : Z) (w : World) :
  let first := LoanService_returnLoan loanId clock w in
  let second := LoanService_returnLoan loanId clock' (snd first) in
  first = (Rejected (Error "Not implemented"), w) /\
  second = (Rejected (Error "Not implemented"), w) /\
  ~ rejected_as "InvalidStateError" (fst second) /\
  ~ rejected_as "NotFoundError" (fst first).
Proof.
  cbv zeta. rewrite !returnLoan_rejects. cbn [fst snd].
  repeat split; by apply not_implemented_kind.
Qed.

(** ** Fine settlement *)

(** C5, as stated, fails: for a fine id that no fine has, [payFine] is
    rejected, but not with a NotFoundError; and for fine F1, already
    Paid, not with an InvalidStateError. *)
Lemma payFine_counterexample :
  Forall (fun f => fine_id f <> "F404"%string) (repo_fine paidWorld) /\
  ~ rejected_as "NotFoundError"
      (fst (PaymentService_payFine "F404" "tok_visa" 1704844800000 paidWorld)) /\
  fineF1 ∈ repo_fine paidWorld /\
  fine_status fineF1 = "Paid"%string /\
  ~ rejected_as "InvalidStateError"
      (fst (PaymentService_payFine "F1" "tok_visa" 1704844800000 paidWorld)).
Proof.
  split; [by repeat constructor|].
  split; [by apply not_implemented_kind|].
  split; [left|]. split; [reflexivity|].
  by apply not_implemented_kind.
Qed.

(** C5 (amended): for every fine id (unknown, Unpaid or Paid) and card
    token, [PaymentService.payFine] is rejected with a plain
    Error("Not implemented") -- not a NotFoundError, InvalidStateError
    or PaymentError -- and leaves the stores as they were: an Unpaid
    fine remains Unpaid with no partial state, [payFine] never makes a
    fine Paid and so never separates Paid from [receiptRef], and after a
    second call [amountCents], [paidAt] and [receiptRef] of every fine
    are unchanged. *)
Theorem payFine_always_rejects (fineId cardToken : string) (clock clock' : Z) (w : World) :
  let first := PaymentService_payFine fineId cardToken clock w in
  let second := PaymentService_payFine fineId cardToken clock' (snd first) in
  first = (Rejected (Error "Not implemented"), w) /\
  second = (Rejected (Error "Not implemented"), w) /\
  repo_fine (snd first) = repo_fine w /\
  repo_fine (snd second) = repo_fine w /\
  Forall (fun name => ~ rejected_as name (fst first) /\ ~ rejected_as name (fst second))
         ["NotFoundError"; "InvalidStateError"; "PaymentError"]%string.
Proof.
  cbv zeta. rewrite !payFine_rejects. cbn [fst snd].
  repeat split; repeat constructor; by apply not_implemented_kind.
Qed.

(** ** Request review *)

(** C7, as stated, fails: on 2024-02-01, for equipment E1 that is
    Available with no loan and no request, [submitRequest] for
    [2024-03-01, 2024-03-05) creates no LoanRequest and returns no id;
    and with start = end the rejection is not a ValidationError. *)
Lemma submitRequest_counterexample :
  let clock := 1706745600000 in
  let start := utc 2024 2 1 in
  let end_ := utc 2024 2 5 in
  let r := ApprovalController_submitRequest "E1" "S1" start end_ clock shelfWorld in
  date_lt start end_ /\
  date_lt (mkDate (Some clock)) start /\
  equipment_status <$> repo_equipment shelfWorld = ["Available"%string] /\
  (forall id, fst r <> Fulfilled id) /\
  repo_loanRequest (snd r) = [] /\
  ~ rejected_as "ValidationError"
      (fst (ApprovalController_submitRequest "E1" "S1" start start clock shelfWorld)).
Proof.
  cbv zeta. split; [by vm_compute|]. split; [by vm_compute|].
  split; [reflexivity|]. split; [discriminate|]. split; [reflexivity|].
  by apply not_implemented_kind.
Qed.

(** C7 (amended): for every equipment id, requester id, start and end
    -- whether or not start >= end, start is in the past or the
    equipment is free -- [submitRequest] is rejected with a plain
    Error("Not implemented"), which is neither a ValidationError nor an
    AvailabilityError; it creates no LoanRequest, returns no id and
    leaves the stores unchanged. *)
Theorem submitRequest_always_rejects (equipmentId studentId : string)
    (start end_ : Date) (clock : Z) (w : World) :
  let r := ApprovalController_submitRequest equipmentId studentId start end_ clock w in
  r = (Rejected (Error "Not implemented"), w) /\
  (forall id, fst r <> Fulfilled id) /\
  repo_loanRequest (snd r) = repo_loanRequest w /\
  ~ rejected_as "ValidationError" (fst r) /\
  ~ rejected_as "AvailabilityError" (fst r).
Proof.
  cbv zeta. rewrite submitRequest_rejects. cbn [fst snd].
  repeat split; try discriminate; by apply not_implemented_kind.
Qed.

(** C9: every method of AvailabilityService, LoanService,
    NotificationService, PaymentService, OverdueService and
    ApprovalController throws Error("Not implemented") for every input
    (its promise is rejected with it), and no call changes the stores. *)
Theorem services_not_implemented (clock : Z) (w : World) :
  (forall equipmentId period,
     AvailabilityService_isAvailable equipmentId period clock w
     = (Rejected (Error "Not implemented"), w)) /\
  (forall request,
     LoanService_createLoanFromRequest request clock w
     = (Rejected (Error "Not implemented"), w)) /\
  (forall loanId,
     LoanService_returnLoan loanId clock w = (Rejected (Error "Not implemented"), w)) /\
  (forall to message,
     NotificationService_send to message clock w
     = (Rejected (Error "Not implemented"), w)) /\
  (forall fineId cardToken,
     PaymentService_payFine fineId cardToken clock w
     = (Rejected (Error "Not implemented"), w)) /\
  (forall now,
     OverdueService_runDailyCheck now clock w
     = (Rejected (Error "Not implemented"), w)) /\
  (forall equipmentId studentId start end_,
     ApprovalController_submitRequest equipmentId studentId start end_ clock w
     = (Rejected (Error "Not implemented"), w)) /\
  (forall requestId decision,
     ApprovalController_reviewRequest requestId decision clock w
     = (Rejected (Error "Not implemented"), w)).
Proof. repeat split. Qed.

(** ** Entities *)

(** C8, as stated, fails: the record built by [new Student(...)] has
    role "Student", which is neither "Requester" nor "Approver", and it
    is an instance of a subclass of [User]. *)
Lemma person_role_counterexample :
  let p := new_Student "S1" "Ada" "ada@uni.example" in
  user_role p = "Student"%string /\
  user_role p <> "Requester"%string /\
  user_role p <> "Approver"%string /\
  user_class p = ClassStudent /\
  extends (user_class p) = Some ClassUser.
Proof. cbv zeta. repeat split; discriminate. Qed.

(** C8 (amended): every person record built by [Student] has the role
    "Student" and every one built by [Staff] the role "Staff"; [User]
    stores the role it is given.  The role is a data field of the one
    record, and there is a type hierarchy as well: [Student] and [Staff]
    are subclasses of [User] that add nothing but the fixed role. *)
Theorem person_role_values (id name email : string) :
  user_role (new_Student id name email) = "Student"%string /\
  user_role (new_Staff id name email) = "Staff"%string /\
  (forall role, user_role (new_User id name email role) = role) /\
  extends (user_class (new_Student id name email)) = Some (user_class (new_User id name email "Student")) /\
  extends (user_class (new_Staff id name email)) = Some (user_class (new_User id name email "Staff")) /\
  new_Student id name email = User_constructor ClassStudent id name email "Student" /\
  new_Staff id name email = User_constructor ClassStaff id name email "Staff".
Proof. repeat split. Qed.

(** C10: built without a status argument (so without the arguments that
    follow it either), an Equipment is Available, a LoanRequest is
    Pending, a Loan is Active with [returnedAt] unset, and a Fine is
    Unpaid with [paidAt] and [receiptRef] unset. *)
Theorem constructor_defaults (clock : Z) (id name category studentId equipmentId loanId : string)
    (startDate endDate dueDate : Date) (amount : Z) :
  equipment_status (new_Equipment id name category None) = "Available"%string /\
  request_status (new_LoanRequest clock id studentId equipmentId startDate endDate None None)
    = "Pending"%string /\
  (let l := new_Loan id studentId equipmentId startDate dueDate None None in
   loan_status l = "Active"%string /\ loan_returnedAt l = None) /\
  (let f := new_Fine clock id loanId amount None None None None in
   fine_status f = "Unpaid"%string /\ fine_paidAt f = None /\ fine_receiptRef f = None).
Proof. repeat split. Qed.

(** * Further properties of the code *)

(** ** The two strategies as arithmetic on time values *)

Section PolicyValues.

Lemma FixedDays_value this start :
  FixedDaysStrategy_calculate this start
  = mkDate (match TimeClip (DateValue start) with
            | Some t => TimeClip (Some (t + fixed_days this * msPerDay))
            | None => None
            end).
Proof. unfold FixedDaysStrategy_calculate. apply add_days_value. Qed.

Lemma CategoryBased_value this start equipment n :
  nullish_7 (rules_get (rules this) (category_key equipment)) = PNumber n ->
  CategoryBasedStrategy_calculate this start equipment
  = mkDate (match TimeClip (DateValue start) with
            | Some t => TimeClip (Some (t + n * msPerDay))
            | None => None
            end).
Proof.
  intros Hn. unfold CategoryBasedStrategy_calculate. rewrite Hn.
  cbn [plus_days]. apply add_days_value.
Qed.

Lemma CategoryBased_not_a_number this start equipment :
  (forall n, nullish_7 (rules_get (rules this) (category_key equipment)) <> PNumber n) ->
  CategoryBasedStrategy_calculate this start equipment = InvalidDate.
Proof.
  intros Hn. unfold CategoryBasedStrategy_calculate.
  destruct (nullish_7 _) as [n| |]; [by destruct (Hn n)| |];
    cbn [plus_days]; unfold setUTCDate, InvalidDate;
    by destruct (DateValue (newDate start)) eqn:E; [|destruct (newDate start); cbn in E; subst].
Qed.

Lemma TimeClip_Some o t : TimeClip o = Some t -> o = Some t /\ valid_time t.
Proof.
  destruct o as [x|]; [|done]. unfold TimeClip, valid_time.
  destruct (Z.ltb_spec maxTimeValue (Z.abs x)); [done|].
  intros [= <-]. by split.
Qed.

Lemma TimeClip_wf o : wf_date (mkDate (TimeClip o)).
Proof.
  unfold wf_date. cbn [DateValue].
  destruct (TimeClip o) as [t|] eqn:E; [|done]. by apply TimeClip_Some in E as [_ ?].
Qed.

Lemma wf_date_TimeClip d : wf_date d -> TimeClip (DateValue d) = DateValue d.
Proof.
  unfold wf_date. destruct (DateValue d) as [t|]; [apply TimeClip_valid|done].
Qed.

(** When [calculate] returns a valid Date, the start date was valid and
    the result is it plus the days. *)
Lemma FixedDays_value_inv this start r :
  DateValue (FixedDaysStrategy_calculate this start) = Some r ->
  exists t, DateValue start = Some t /\ valid_time t /\ valid_time r /\
            r = t + fixed_days this * msPerDay.
Proof.
  rewrite FixedDays_value. cbn [DateValue].
  destruct (TimeClip (DateValue start)) as [t|] eqn:E; [|done].
  apply TimeClip_Some in E as [E Ht].
  intros [[= <-] Hr]%TimeClip_Some. by exists t.
Qed.

End PolicyValues.

Section PolicyAlgebra.

(** X1: lending for [a] days and then for [b] more is lending for
    [a + b] days, as long as the date in between is one a Date can hold. *)
Theorem FixedDays_calculate_compose (a b : Z) (start : Date) (t : Z) :
  DateValue start = Some t ->
  valid_time t ->
  valid_time (t + a * msPerDay) ->
  FixedDaysStrategy_calculate {| fixed_days := b |}
    (FixedDaysStrategy_calculate {| fixed_days := a |} start)
  = FixedDaysStrategy_calculate {| fixed_days := a + b |} start.
Proof.
  intros Hs Ht Ha. rewrite !FixedDays_value. cbn [DateValue fixed_days].
  rewrite Hs, (TimeClip_valid t Ht). cbn [DateValue].
  rewrite !(TimeClip_valid _ Ha).
  by replace (t + a * msPerDay + b * msPerDay) with (t + (a + b) * msPerDay) by lia.
Qed.

Lemma FixedDays_calculate_compose_witness :
  FixedDaysStrategy_calculate {| fixed_days := 7 |}
    (FixedDaysStrategy_calculate {| fixed_days := 3 |} (utc 2024 1 27))
  = FixedDaysStrategy_calculate {| fixed_days := 3 + 7 |} (utc 2024 1 27).
Proof.
  apply (FixedDays_calculate_compose 3 7 (utc 2024 1 27) 1708992000000).
  - reflexivity.
  - unfold valid_time. vm_compute. discriminate.
  - unfold valid_time. vm_compute. discriminate.
Defined.

(** X2: going back N days from the due date gives the start date again:
    [calculate] with -N undoes [calculate] with N whenever the due date
    is one a Date can hold. *)
Theorem FixedDays_calculate_undo (N : Z) (start : Date) (t : Z) :
  DateValue start = Some t ->
  valid_time t ->
  valid_time (t + N * msPerDay) ->
  FixedDaysStrategy_calculate {| fixed_days := - N |}
    (FixedDaysStrategy_calculate {| fixed_days := N |} start)
  = start.
Proof.
  intros Hs Ht Hr. rewrite !FixedDays_value. cbn [DateValue fixed_days].
  rewrite Hs, (TimeClip_valid t Ht). cbn [DateValue].
  rewrite !(TimeClip_valid _ Hr).
  replace (t + N * msPerDay + - N * msPerDay) with t by lia.
  rewrite (TimeClip_valid t Ht). destruct start as [v]. cbn in Hs. by subst.
Qed.

Lemma FixedDays_calculate_undo_witness :
  FixedDaysStrategy_calculate {| fixed_days := - 7 |}
    (FixedDaysStrategy_calculate {| fixed_days := 7 |} (utc 2024 1 27))
  = utc 2024 1 27.
Proof.
  apply (FixedDays_calculate_undo 7 (utc 2024 1 27) 1708992000000).
  - reflexivity.
  - unfold valid_time. vm_compute. discriminate.
  - unfold valid_time. vm_compute. discriminate.
Defined.

(** X3: [FixedDaysStrategy.calculate] returns an Invalid Date exactly
    when the start date is invalid (or was never a legal time value) or
    the start date plus the days is outside the range of Date. *)
Theorem FixedDays_calculate_invalid_iff (this : FixedDaysStrategy) (start : Date) :
  DateValue (FixedDaysStrategy_calculate this start) = None <->
  match DateValue start with
  | None => True
  | Some t => ~ valid_time t \/ ~ valid_time (t + fixed_days this * msPerDay)
  end.
Proof.
  rewrite FixedDays_value. cbn [DateValue].
  destruct (DateValue start) as [t|]; [|done].
  destruct (decide (Z.abs t <= maxTimeValue)) as [Ht|Ht].
  - rewrite (TimeClip_valid t Ht).
    destruct (decide (Z.abs (t + fixed_days this * msPerDay) <= maxTimeValue)) as [Hr|Hr].
    + rewrite (TimeClip_valid _ Hr). split; [done|]. by intros [?|?].
    + rewrite (TimeClip_invalid _ Hr). split; [by right|done].
  - rewrite (TimeClip_invalid t Ht). split; [by left|done].
Qed.

(** X4: whatever they are given -- an Invalid Date, a time value out of
    range, any number of days, any rules and equipment -- both
    strategies return a Date that is Invalid or within the range of
    Date; no out-of-range time value ever comes out. *)
Theorem calculate_result_in_range (f : FixedDaysStrategy) (c : CategoryBasedStrategy)
    (start : Date) (equipment : option Equipment) :
  wf_date (FixedDaysStrategy_calculate f start) /\
  wf_date (CategoryBasedStrategy_calculate c start equipment).
Proof.
  split.
  - rewrite FixedDays_value.
    destruct (TimeClip (DateValue start)); [apply TimeClip_wf|done].
  - destruct (nullish_7 (rules_get (rules c) (category_key equipment))) as [n| |] eqn:E.
    + rewrite (CategoryBased_value _ _ _ n E).
      destruct (TimeClip (DateValue start)); [apply TimeClip_wf|done].
    + rewrite CategoryBased_not_a_number; [done|]. intros n. by rewrite E.
    + rewrite CategoryBased_not_a_number; [done|]. intros n. by rewrite E.
Qed.

(** X5: with a positive number of days, a due date that is a valid Date
    is strictly later than the start date. *)
Theorem FixedDays_due_after_start (this : FixedDaysStrategy) (start : Date) :
  0 < fixed_days this ->
  DateValue (FixedDaysStrategy_calculate this start) <> None ->
  date_lt start (FixedDaysStrategy_calculate this start).
Proof.
  intros HN Hv.
  destruct (DateValue (FixedDaysStrategy_calculate this start)) as [r|] eqn:E; [|done].
  destruct (FixedDays_value_inv _ _ _ E) as (t & Hs & _ & _ & ->).
  unfold date_lt. rewrite Hs, E. unfold msPerDay. lia.
Qed.

Lemma FixedDays_due_after_start_witness :
  date_lt (utc 2024 1 27) (FixedDaysStrategy_calculate (new_FixedDaysStrategy None) (utc 2024 1 27)).
Proof.
  apply FixedDays_due_after_start.
  - reflexivity.
  - vm_compute. discriminate.
Defined.

(** X6: [calculate] keeps the order of start dates: of two loans under
    the same strategy, the one that starts earlier is due earlier
    (both due dates being valid Dates). *)
Theorem FixedDays_calculate_monotone (this : FixedDaysStrategy) (start1 start2 : Date) :
  date_lt start1 start2 ->
  DateValue (FixedDaysStrategy_calculate this start1) <> None ->
  DateValue (FixedDaysStrategy_calculate this start2) <> None ->
  date_lt (FixedDaysStrategy_calculate this start1) (FixedDaysStrategy_calculate this start2).
Proof.
  intros Hlt H1 H2.
  destruct (DateValue (FixedDaysStrategy_calculate this start1)) as [r1|] eqn:E1; [|done].
  destruct (DateValue (FixedDaysStrategy_calculate this start2)) as [r2|] eqn:E2; [|done].
  destruct (FixedDays_value_inv _ _ _ E1) as (t1 & Hs1 & _ & _ & ->).
  destruct (FixedDays_value_inv _ _ _ E2) as (t2 & Hs2 & _ & _ & ->).
  unfold date_lt in *. rewrite Hs1, Hs2 in Hlt. rewrite E1, E2. lia.
Qed.

Lemma FixedDays_calculate_monotone_witness :
  date_lt (FixedDaysStrategy_calculate (new_FixedDaysStrategy (Some 30)) (utc 2024 0 31))
          (FixedDaysStrategy_calculate (new_FixedDaysStrategy (Some 30)) (utc 2024 1 1)).
Proof.
  apply FixedDays_calculate_monotone.
  - by vm_compute.
  - vm_compute. discriminate.
  - vm_compute. discriminate.
Defined.

End PolicyAlgebra.

(** ** The due date on the calendar *)

Section PolicyCalendar.

Lemma InLeapYear_DaysInYear t : DaysInYear (YearFromTime t) = 365 + InLeapYear t.
Proof.
  unfold InLeapYear. pose proof (DaysInYear_bounds (YearFromTime t)).
  destruct (Z.eqb_spec (DaysInYear (YearFromTime t)) 366); lia.
Qed.

(** Moving by [n] days inside the first 28 days of a month stays in the
    year. *)
Lemma same_year_within_month t r n :
  Day r = Day t + n ->
  1 <= DateFromTime t + n <= 28 ->
  YearFromTime r = YearFromTime t.
Proof.
  intros HD Hn.
  pose proof (DateFromTime_offset t) as Ho.
  pose proof (MonthFromTime_bounds t) as Hm.
  pose proof (DaysBeforeMonth_bounds (YearFromTime t) (MonthFromTime t) ltac:(lia)) as Hb.
  unfold YearFromTime at 1. rewrite HD. apply YearFromDay_unique.
  rewrite DayFromYear_succ, InLeapYear_DaysInYear.
  assert (0 <= InLeapYear t) by (unfold InLeapYear; destruct (_ =? _); lia).
  unfold DayWithinYear in Ho. lia.
Qed.

Lemma same_month_within_month t r n :
  Day r = Day t + n ->
  1 <= DateFromTime t + n <= 28 ->
  MonthFromTime r = MonthFromTime t /\ DateFromTime r = DateFromTime t + n.
Proof.
  intros HD Hn.
  pose proof (same_year_within_month t r n HD Hn) as HY.
  assert (HW : DayWithinYear r = DayWithinYear t + n)
    by (unfold DayWithinYear; rewrite HY, HD; lia).
  assert (HL : InLeapYear r = InLeapYear t) by (unfold InLeapYear; by rewrite HY).
  assert (Hl : 0 <= InLeapYear t <= 1)
    by (unfold InLeapYear; destruct (_ =? _); lia).
  pose proof (DayWithinYear_bounds t) as Hw.
  revert Hn. unfold DateFromTime, MonthFromTime. rewrite HW, HL.
  generalize dependent (DayWithinYear t). generalize dependent (InLeapYear t).
  intros L _ HL W _ Hw. cbv zeta.
  repeat (match goal with |- context [?a <? ?b] => destruct (Z.ltb_spec a b) end;
          cbv beta iota);
    intros Hn; first [lia | split; lia].
Qed.

(** X7: when the start date's day of the month plus the days stays
    between 1 and 28, the due date is in the same month of the same
    year, on that day of the month, at the same time of day. *)
Theorem FixedDays_calculate_same_month (this : FixedDaysStrategy) (start : Date) (t : Z) :
  DateValue start = Some t ->
  valid_time t ->
  valid_time (t + fixed_days this * msPerDay) ->
  1 <= DateFromTime t + fixed_days this <= 28 ->
  exists r, DateValue (FixedDaysStrategy_calculate this start) = Some r /\
            YearFromTime r = YearFromTime t /\
            MonthFromTime r = MonthFromTime t /\
            DateFromTime r = DateFromTime t + fixed_days this /\
            TimeWithinDay r = TimeWithinDay t.
Proof.
  intros Hs Ht Hr Hn. exists (t + fixed_days this * msPerDay).
  rewrite FixedDays_value, Hs, (TimeClip_valid t Ht). cbn [DateValue].
  rewrite (TimeClip_valid _ Hr). split; [done|].
  pose proof (Day_shift t (fixed_days this)) as HD.
  split; [by apply (same_year_within_month _ _ _ HD)|].
  destruct (same_month_within_month _ _ _ HD Hn) as [HM HDt].
  split; [done|]. split; [done|]. apply TimeWithinDay_shift.
Qed.

Lemma FixedDays_calculate_same_month_witness :
  exists r, DateValue (FixedDaysStrategy_calculate (new_FixedDaysStrategy None) (utc 2024 1 20))
            = Some r /\
            YearFromTime r = 2024 /\ MonthFromTime r = 1 /\ DateFromTime r = 27.
Proof.
  destruct (FixedDays_calculate_same_month (new_FixedDaysStrategy None)
              (utc 2024 1 20) 1708387200000) as (r & Hr & HY & HM & HD & _).
  - reflexivity.
  - unfold valid_time. vm_compute. discriminate.
  - unfold valid_time. vm_compute. discriminate.
  - vm_compute. split; discriminate.
  - exists r. split; [exact Hr|]. rewrite HY, HM, HD. vm_compute. repeat split.
Defined.

Lemma WeekDay_shift t n : WeekDay (t + n * msPerDay) = (WeekDay t + n) mod 7.
Proof.
  unfold WeekDay. rewrite Day_shift, Z.add_mod_idemp_l by discriminate.
  f_equal. lia.
Qed.

(** X8: the due date falls on the day of the week of the start date
    moved by the days modulo 7; with a whole number of weeks (the
    default 7 days) it is the same day of the week: a weekend or a
    holiday changes nothing. *)
Theorem FixedDays_calculate_weekday (this : FixedDaysStrategy) (start : Date) (t r : Z) :
  DateValue start = Some t ->
  DateValue (FixedDaysStrategy_calculate this start) = Some r ->
  WeekDay r = (WeekDay t + fixed_days this) mod 7 /\
  (fixed_days this mod 7 = 0 -> WeekDay r = WeekDay t).
Proof.
  intros Hs Hr.
  destruct (FixedDays_value_inv _ _ _ Hr) as (t' & Hs' & _ & _ & ->).
  rewrite Hs in Hs'. injection Hs' as <-.
  rewrite WeekDay_shift. split; [done|]. intros H7.
  rewrite <- Z.add_mod_idemp_r, H7, Z.add_0_r by discriminate.
  unfold WeekDay. by rewrite Z.mod_mod.
Qed.

Lemma FixedDays_calculate_weekday_witness :
  WeekDay 1708387200000 = 2 /\ WeekDay 1708992000000 = 2.
Proof.
  destruct (FixedDays_calculate_weekday (new_FixedDaysStrategy None)
              (utc 2024 1 20) 1708387200000 1708992000000) as [_ H].
  - reflexivity.
  - reflexivity.
  - split; [reflexivity|]. rewrite H; reflexivity.
Defined.

End PolicyCalendar.

(** ** The category rules *)

Section CategoryRules.

Ltac not_inherited_key :=
  let H := fresh in
  intros H; apply (bool_decide_eq_true_2 _) in H; vm_compute in H; discriminate H.

(** X9: [CategoryBasedStrategy.calculate] is [FixedDaysStrategy.calculate]
    with the number of days the category selects: for every start date
    (valid or not, in range or not) it returns what a fixed strategy of
    [rules[category]] days returns when the category is configured, and
    what the default fixed strategy (7 days) returns when it is not
    configured and is not the name of an inherited property. *)
Theorem CategoryBased_calculate_as_FixedDays (this : CategoryBasedStrategy)
    (start : Date) (equipment : option Equipment) :
  let key := category_key equipment in
  (forall n, rules this !! key = Some n ->
     CategoryBasedStrategy_calculate this start equipment
     = FixedDaysStrategy_calculate (new_FixedDaysStrategy (Some n)) start) /\
  (rules this !! key = None -> key ∉ ObjectPrototypeKeys ->
     CategoryBasedStrategy_calculate this start equipment
     = FixedDaysStrategy_calculate (new_FixedDaysStrategy None) start).
Proof.
  cbv zeta. split.
  - intros n Hn.
    by rewrite (CategoryBased_value _ _ _ n (rules_get_configured _ _ _ Hn)), FixedDays_value.
  - intros Hn Hk.
    by rewrite (CategoryBased_value _ _ _ 7 (rules_get_default _ _ Hn Hk)), FixedDays_value.
Qed.

Lemma CategoryBased_calculate_as_FixedDays_witness :
  let this := new_CategoryBasedStrategy (Some {[ "Camera"%string := 3 ]}) in
  (CategoryBasedStrategy_calculate this (utc 2024 11 30)
     (Some (new_Equipment "E1" "Canon EOS" "Camera" None))
   = FixedDaysStrategy_calculate (new_FixedDaysStrategy (Some 3)) (utc 2024 11 30)) /\
  (CategoryBasedStrategy_calculate this InvalidDate None
   = FixedDaysStrategy_calculate (new_FixedDaysStrategy None) InvalidDate).
Proof.
  cbv zeta. split.
  - refine (proj1 (CategoryBased_calculate_as_FixedDays _ _ _) 3 _). reflexivity.
  - refine (proj2 (CategoryBased_calculate_as_FixedDays _ _ _) _ _).
    + reflexivity.
    + not_inherited_key.
Defined.

(** X10: a category that has no rule of its own but bears the name of
    a property every object inherits from [Object.prototype]
    ("constructor", "toString", "valueOf", ...) does not get the default
    of 7 days: the lookup finds the inherited property, the sum is not a
    number, and the result is an Invalid Date for every start date. *)
Theorem CategoryBased_inherited_category (this : CategoryBasedStrategy)
    (start : Date) (e : Equipment) :
  rules this !! equipment_category e = None ->
  equipment_category e ∈ ObjectPrototypeKeys ->
  CategoryBasedStrategy_calculate this start (Some e) = InvalidDate.
Proof.
  intros Hr Hin. apply CategoryBased_not_a_number. intros n.
  unfold rules_get. cbn [category_key].
  by rewrite Hr, bool_decide_eq_true_2.
Qed.

Lemma CategoryBased_inherited_category_witness :
  CategoryBasedStrategy_calculate (new_CategoryBasedStrategy None) (utc 2024 0 1)
    (Some (new_Equipment "E7" "Stage prop" "toString" None))
  = InvalidDate.
Proof.
  apply CategoryBased_inherited_category.
  - reflexivity.
  - apply (bool_decide_unpack _). by vm_compute.
Defined.

(** X11: a rule of 0 days is a rule: [??] replaces only a missing rule,
    so a category configured with 0 is due on the start date itself and
    not after the default 7 days. *)
Theorem CategoryBased_zero_days_rule (this : CategoryBasedStrategy)
    (start : Date) (equipment : option Equipment) :
  rules this !! category_key equipment = Some 0 ->
  wf_date start ->
  CategoryBasedStrategy_calculate this start equipment = start.
Proof.
  intros Hr Hwf.
  rewrite (CategoryBased_value _ _ _ 0 (rules_get_configured _ _ _ Hr)).
  rewrite (wf_date_TimeClip _ Hwf). unfold wf_date in Hwf.
  destruct start as [[t|]]; cbn [DateValue] in *; [|done].
  by rewrite Z.mul_0_l, Z.add_0_r, (TimeClip_valid t Hwf).
Qed.

Lemma CategoryBased_zero_days_rule_witness :
  CategoryBasedStrategy_calculate
    (new_CategoryBasedStrategy (Some {[ "Reference book"%string := 0 ]}))
    (utc 2024 0 1) (Some (new_Equipment "E3" "Atlas" "Reference book" None))
  = utc 2024 0 1.
Proof.
  apply CategoryBased_zero_days_rule.
  - reflexivity.
  - unfold wf_date, valid_time. vm_compute. discriminate.
Defined.

End CategoryRules.

(** ** Sessions of calls *)

Section Sessions.

Lemma call_outcome_fails c clock w :
  call_outcome c clock w = (Some (Error "Not implemented"), w).
Proof. destruct c; reflexivity. Qed.

Lemma port_outcome_fails c clock w :
  exists msg, port_outcome c clock w = (Some (Error msg), w).
Proof. destruct c; eexists; reflexivity. Qed.

Lemma outcome_fails c clock w :
  exists msg, outcome c clock w = (Some (Error msg), w).
Proof.
  destruct c as [c|c]; cbn [outcome].
  - eexists. apply call_outcome_fails.
  - apply port_outcome_fails.
Qed.

(** X12: in every session -- any calls on the services, controllers,
    repository ports, gateway, mailer, strategy interface and factory,
    in any order, at any times, from any state of the stores -- every
    single call fails with an Error and the stores end as they began:
    nothing is ever stored, updated or removed. *)
Theorem session_changes_nothing (cs : list (AnyCall * Z)) (w : World) :
  snd (run_calls cs w) = w /\
  length (fst (run_calls cs w)) = length cs /\
  Forall (fun o => exists msg, o = Some (Error msg)) (fst (run_calls cs w)).
Proof.
  induction cs as [|[c clock] cs IH]; [by repeat split|].
  cbn [run_calls].
  destruct (outcome_fails c clock w) as [msg ->].
  destruct (run_calls cs w) as [os w'] eqn:E.
  cbn [fst snd] in *. destruct IH as (-> & Hlen & Hall).
  split; [done|]. split; [cbn; by rewrite Hlen|].
  constructor; [by exists msg|done].
Qed.

(** X13: [PaymentController.payFine] adds nothing to the payment service
    it was built with: whatever that service's [payFine] does -- fulfil
    with a value or reject with an error, and whatever it does to the
    stores -- the controller's promise settles the same way over the
    same stores; with [PaymentService] it is the controller of the
    source. *)
Theorem PaymentController_payFine_transparent {A}
    (paymentService_payFine : string -> string -> Z -> World -> Promise A * World)
    (fineId cardToken : string) (clock : Z) (w : World) :
  PaymentController_payFine_via paymentService_payFine fineId cardToken clock w
  = paymentService_payFine fineId cardToken clock w /\
  PaymentController_payFine fineId cardToken clock w
  = PaymentController_payFine_via PaymentService_payFine fineId cardToken clock w.
Proof.
  split; [|reflexivity].
  unfold PaymentController_payFine_via, async.
  by destruct (paymentService_payFine fineId cardToken clock w) as [[a|e] w'].
Qed.

End Sessions.
